(** * Node resolution, port checks and validation of the ironic provisioner,
      and the admission hooks of the BMC event subscription

    A shallow embedding of [pkg/provisioner/ironic/node.go] and of the
    webhook of [BMCEventSubscription].  The remote bare-metal service is the
    environment of the code: it is a record of operations over an abstract
    remote state, every call the code makes is recorded in a request trace,
    and every logger call is recorded in a log.  A Go result made of
    a pointer and an error is a pair of options: [None] is [nil]. *)

From Stdlib Require Import String List Bool Arith Lia.
Import ListNotations.
Local Open Scope string_scope.
Local Open Scope list_scope.

(** ** Errors *)

(** The error values the code can hold.  The type switch of [GetNode] tells
    [gophercloud.ErrDefault404] from every other dynamic type; [fmt.Errorf]
    builds a wrapping error with the verb [%w] and a plain one without. *)
Inductive error : Type :=
| ErrDefault404 (msg : string)
| ErrOther (dynType : string) (msg : string)
| wrapError (msg : string) (err : error)
| errorString (s : string).

(** [err.Error()] *)
Definition Error (e : error) : string :=
  match e with
  | ErrDefault404 msg => msg
  | ErrOther _ msg => msg
  | wrapError msg _ => msg
  | errorString s => s
  end.

(** [errors.Unwrap(err)] *)
Definition Unwrap (e : error) : option error :=
  match e with
  | wrapError _ err => Some err
  | _ => None
  end.

(** [fmt.Errorf(prefix + "%w", err)]: the message is the prefix followed by
    the text of [err], and [err] is kept as the wrapped error. *)
Definition Errorf_w (prefix : string) (err : error) : error :=
  wrapError (prefix ++ Error err) err.

(** ** Loggers ([logr.Logger]) *)

Record Logger : Type := mkLogger {
  level : nat;
  values : list (string * string)
}.

Record LogEntry : Type := mkLogEntry {
  entry_level : nat;
  entry_msg : string;
  entry_values : list (string * string)
}.

Definition WithValues (l : Logger) (k v : string) : Logger :=
  {| level := level l; values := values l ++ [(k, v)] |}.

Definition V (n : nat) (l : Logger) : Logger :=
  {| level := level l + n; values := values l |}.

Definition entry_of (l : Logger) (msg : string) (kvs : list (string * string)) : LogEntry :=
  {| entry_level := level l; entry_msg := msg; entry_values := values l ++ kvs |}.

(** ** Payloads of the remote service *)

Module nodes.

Record DriverValidation : Type := mkDriverValidation {
  Result : bool;
  Reason : string
}.

Record NodeValidation : Type := mkNodeValidation {
  Boot : DriverValidation;
  Deploy : DriverValidation
}.

Record Node : Type := mkNode {
  UUID : string;
  Name : string;
  ProvisionState : string
}.

End nodes.

Module ports.

Record Port : Type := mkPort {
  UUID : string;
  NodeUUID : string;
  Address : string;
  PXEEnabled : bool
}.

Record ListOpts : Type := mkListOpts {
  Fields : list string;
  opts_NodeUUID : string;
  opts_Address : string
}.

Record CreateOpts : Type := mkCreateOpts {
  create_NodeUUID : string;
  create_Address : string;
  create_PXEEnabled : option bool
}.

End ports.

(** The requests the code sends to the remote service. *)
Inductive Request : Type :=
| ReqNodesGet (nodeID : string)
| ReqNodesValidate (nodeID : string)
| ReqPortsList (opts : ports.ListOpts)
| ReqPortsCreate (opts : ports.CreateOpts).

(** ** The service client

    [gophercloud.ServiceClient] with the calls of the packages [nodes] and
    [ports] the code uses.  The library is not part of the repository: each
    call is a parameter, a transition of the remote state that answers with
    a payload or an error.  [Pages] is [pagination.Page]; decoding a page
    and testing it for emptiness are local and can fail. *)
Record ServiceClient : Type := mkServiceClient {
  Remote : Type;
  Pages : Type;
  nodes_Get : string -> Remote -> (nodes.Node + error) * Remote;
  nodes_Validate : string -> Remote -> (nodes.NodeValidation + error) * Remote;
  ports_List_AllPages : ports.ListOpts -> Remote -> (Pages + error) * Remote;
  ports_ExtractPorts : Pages -> list ports.Port + error;
  Pages_IsEmpty : Pages -> bool + error;
  ports_Create : ports.CreateOpts -> Remote -> (ports.Port + error) * Remote
}.

(** What a run can change: the state of the remote service, the trace of the
    requests sent to it, and the log. *)
Record World (client : ServiceClient) : Type := mkWorld {
  remote : Remote client;
  requests : list Request;
  logs : list LogEntry
}.

Arguments mkWorld {client} _ _ _.
Arguments remote {client} _.
Arguments requests {client} _.
Arguments logs {client} _.

(** ** A state monad over the world *)

Definition M (client : ServiceClient) (A : Type) : Type :=
  World client -> A * World client.

Definition ret {client : ServiceClient} {A : Type} (a : A) : M client A :=
  fun w => (a, w).

Definition bind {client : ServiceClient} {A B : Type}
  (m : M client A) (k : A -> M client B) : M client B :=
  fun w => let (a, w') := m w in k a w'.

Declare Scope ironic_scope.
Delimit Scope ironic_scope with ironic.
Notation "x <- m ;; k" := (bind m (fun x => k))
  (at level 61, m at next level, right associativity) : ironic_scope.
Notation "' pat <- m ;; k" := (bind m (fun x => match x with pat => k end))
  (at level 61, pat pattern, m at next level, right associativity) : ironic_scope.
Notation "m ;;; k" := (bind m (fun _ => k))
  (at level 61, right associativity) : ironic_scope.
Local Open Scope ironic_scope.

Section Ironic.

(** [nodeUpdater] and [updateOptsBuilder] are declared in another file of
    the package; [GetNode] only stores what the builder returns. *)
Variable nodeUpdater : Type.
Variable updateOptsBuilder : Logger -> nodeUpdater.

Variable client : ServiceClient.

(** [Node]: the payload [nodes.Node] with the logger and the updater.  The
    field [client] of the Go struct always holds the client the node was
    fetched with, which is the [client] of this section. *)
Record Node : Type := mkNode {
  node : nodes.Node;
  log : Logger;
  updater : nodeUpdater
}.

(** *** Primitive effects *)

Definition Logger_Info (l : Logger) (msg : string) (kvs : list (string * string))
  : M client unit :=
  fun w => (tt, {| remote := remote w;
                   requests := requests w;
                   logs := logs w ++ [entry_of l msg kvs] |}).

Definition call {A : Type} (req : Request)
  (op : Remote client -> A * Remote client) : M client A :=
  fun w => let (a, r') := op (remote w) in
           (a, {| remote := r';
                  requests := requests w ++ [req];
                  logs := logs w |}).

Definition Get (nodeID : string) : M client (nodes.Node + error) :=
  call (ReqNodesGet nodeID) (nodes_Get client nodeID).

Definition Validate_call (nodeID : string) : M client (nodes.NodeValidation + error) :=
  call (ReqNodesValidate nodeID) (nodes_Validate client nodeID).

Definition List_AllPages (opts : ports.ListOpts) : M client (Pages client + error) :=
  call (ReqPortsList opts) (ports_List_AllPages client opts).

Definition Create (opts : ports.CreateOpts) : M client (ports.Port + error) :=
  call (ReqPortsCreate opts) (ports_Create client opts).

(** *** [GetNode] returns a node by its ID or nil. *)
Definition GetNode (log : Logger) (nodeID : string)
  : M client (option Node * option error) :=
  if String.eqb nodeID "" then ret (None, None)
  else
    let node_log := WithValues log "NodeID" nodeID in
    let node_updater := updateOptsBuilder log in
    res <- Get nodeID ;;
    match res with
    | inl n =>
        let node := {| node := n; log := node_log; updater := node_updater |} in
        Logger_Info (V 1 node_log) "found existing node by ID" [] ;;;
        ret (Some node, None)
    | inr (ErrDefault404 _) => ret (None, None)
    | inr err =>
        ret (None, Some (Errorf_w ("failed to find node by ID " ++ nodeID ++ ": ") err))
    end.

(** *** [AssertNode] returns a node by its ID and fails if it is not found. *)
Definition AssertNode (log : Logger) (nodeID : string)
  : M client (option Node * option error) :=
  '(node, err) <- GetNode log nodeID ;;
  let err :=
    match node, err with
    | None, Some _ =>
        Some (errorString ("failed to find node by ID " ++ nodeID ++ ": not found"))
    | _, _ => err
    end in
  ret (node, err).

(** *** [FindNodeByNames] finds a node by one or more possible names.
    The first match is returned; duplicates are not checked.  The [for]
    loop over [names] is the recursion on the list. *)
Fixpoint FindNodeByNames (log : Logger) (names : list string)
  : M client (option Node * option error) :=
  let debugLog := V 1 log in
  match names with
  | [] => ret (None, None)
  | nodeName :: names' =>
      Logger_Info debugLog "looking for existing node by name" [("name", nodeName)] ;;;
      '(node, err) <- GetNode log nodeName ;;
      match err with
      | Some err =>
          ret (None,
               Some (Errorf_w ("failed to find node by name " ++ nodeName ++ ": ") err))
      | None =>
          match node with
          | Some node =>
              Logger_Info debugLog "found existing node by name" [("name", nodeName)] ;;;
              ret (Some node, None)
          | None =>
              Logger_Info log ("node with name " ++ nodeName ++ " doesn't exist") [] ;;;
              FindNodeByNames log names'
          end
      end
  end.

(** *** [findNodeIDByMAC] returns the node ID matching the MAC address or
    an empty string. *)
Definition findNodeIDByMAC (log : Logger) (macAddress : string)
  : M client (string * option error) :=
  let opts := {| ports.Fields := ["node_uuid"];
                 ports.opts_NodeUUID := "";
                 ports.opts_Address := macAddress |} in
  pages <- List_AllPages opts ;;
  match pages with
  | inr err => ret ("", Some err)
  | inl pages =>
      match ports_ExtractPorts client pages with
      | inr err => ret ("", Some err)
      | inl [] => ret ("", None)
      | inl (port0 :: _) => ret (ports.NodeUUID port0, None)
      end
  end.

Definition is_nil {A : Type} (o : option A) : bool :=
  match o with
  | None => true
  | Some _ => false
  end.

(** *** [FindNodeByMAC] returns a node by one of its MAC addresses. *)
Definition FindNodeByMAC (log : Logger) (macAddress : string)
  : M client (option Node * option error) :=
  '(nodeID, err) <- findNodeIDByMAC log macAddress ;;
  if String.eqb nodeID "" || negb (is_nil err) then ret (None, err)
  else GetNode log nodeID.

(** *** [CreateBootPort] creates a port with PXE booting enabled. *)
Definition CreateBootPort (n : Node) (macAddress : string) : M client (option error) :=
  Logger_Info (log n) "creating PXE enabled ironic port for node"
    [("NodeUUID", nodes.UUID (node n)); ("MAC", macAddress)] ;;;
  let enabled := true in
  res <- Create {| ports.create_NodeUUID := nodes.UUID (node n);
                   ports.create_Address := macAddress;
                   ports.create_PXEEnabled := Some enabled |} ;;
  match res with
  | inr err =>
      ret (Some (Errorf_w ("failed to create ironic port " ++ macAddress
                           ++ " for node " ++ nodes.UUID (node n) ++ ": ") err))
  | inl _ => ret None
  end.

(** *** [Validate] validates boot and deploy information for the node.
    Validation failures are returned as a list of strings, failures to run
    the validation call itself as a normal error.  [failures] and [err]
    are named results: a bare [return] gives back their current values,
    and [failures] starts as the nil slice. *)
Definition Validate (n : Node) : M client (list string * option error) :=
  Logger_Info (log n) "validating node settings in ironic" [] ;;;
  let failures : list string := [] in
  res <- Validate_call (nodes.UUID (node n)) ;;
  match res with
  | inr err => ret (failures, Some err)
  | inl validateResult =>
      let failures :=
        if negb (nodes.Result (nodes.Boot validateResult))
        then failures ++ [nodes.Reason (nodes.Boot validateResult)]
        else failures in
      let failures :=
        if negb (nodes.Result (nodes.Deploy validateResult))
        then failures ++ [nodes.Reason (nodes.Deploy validateResult)]
        else failures in
      ret (failures, None)
  end.

(** *** [HasPorts] checks whether the node has any ports. *)
Definition HasPorts (n : Node) : M client (bool * option error) :=
  let opts := {| ports.Fields := ["node_uuid"];
                 ports.opts_NodeUUID := nodes.UUID (node n);
                 ports.opts_Address := "" |} in
  allPages <- List_AllPages opts ;;
  match allPages with
  | inr err => ret (false, Some (Errorf_w "failed to page over list of ports: " err))
  | inl allPages =>
      match Pages_IsEmpty client allPages with
      | inr err => ret (false, Some (Errorf_w "failed to check port list status: " err))
      | inl empty => if empty then ret (false, None) else ret (true, None)
      end
  end.

End Ironic.

Arguments mkNode {nodeUpdater} _ _ _.
Arguments node {nodeUpdater} _.
Arguments log {nodeUpdater} _.
Arguments updater {nodeUpdater} _.
Arguments GetNode {nodeUpdater} _ _ _ _ _.
Arguments AssertNode {nodeUpdater} _ _ _ _ _.
Arguments FindNodeByNames {nodeUpdater} _ _ _ _ _.
Arguments FindNodeByMAC {nodeUpdater} _ _ _ _ _.
Arguments CreateBootPort {nodeUpdater} _ _ _ _.
Arguments Validate {nodeUpdater} _ _ _.
Arguments HasPorts {nodeUpdater} _ _ _.

(** ** The admission hooks of [BMCEventSubscription] (package [v1alpha1]) *)

Module v1alpha1.

(** The resource type is declared in another file of the package; the hooks
    below read its name only. *)
Record BMCEventSubscription : Type := mkBMCEventSubscription {
  Name : string
}.

(** [bmcsubscriptionlog] is for logging in this package. *)
Definition bmcsubscriptionlog : Logger :=
  {| level := 0; values := [("logger", "bmceventsubscription-resource")] |}.

Section Webhook.

(** [runtime.Object] *)
Variable Object : Type.

(** [ValidateUpdate]: the hook logs and rejects; [out] is the log. *)
Definition ValidateUpdate (s : BMCEventSubscription) (old : Object)
  (out : list LogEntry) : option error * list LogEntry :=
  let out := out ++ [entry_of bmcsubscriptionlog "validate update" [("name", Name s)]] in
  (Some (errorString "subscriptions cannot be updated, please recreate it"), out).

(** [ValidateDelete] *)
Definition ValidateDelete (s : BMCEventSubscription) : option error :=
  None.

End Webhook.

End v1alpha1.

(** ** Vocabulary of the statements *)

(** The case [gophercloud.ErrDefault404] of the type switch, as a test. *)
Definition is404 (e : error) : bool :=
  match e with
  | ErrDefault404 _ => true
  | _ => false
  end.

(** The requests a sequence of [GetNode] calls sends: one per name that is
    not empty, in the order of the names. *)
Definition lookups (names : list string) : list Request :=
  map ReqNodesGet (filter (fun n => negb (String.eqb n "")) names).

(** The names [FindNodeByNames] announced in the log before looking them up,
    oldest first. *)
Definition announced (e : LogEntry) : list string :=
  if String.eqb (entry_msg e) "looking for existing node by name"
  then match rev (entry_values e) with
       | (_, nodeName) :: _ => [nodeName]
       | [] => []
       end
  else [].

Definition looked_up (out : list LogEntry) : list string :=
  flat_map announced out.

(** The two port queries of the code: the ports with a given address and
    the ports of a given node, both projected on the owning-node field. *)
Definition ports_by_address (macAddress : string) : ports.ListOpts :=
  {| ports.Fields := ["node_uuid"];
     ports.opts_NodeUUID := "";
     ports.opts_Address := macAddress |}.

Definition ports_of_node (nodeUUID : string) : ports.ListOpts :=
  {| ports.Fields := ["node_uuid"];
     ports.opts_NodeUUID := nodeUUID;
     ports.opts_Address := "" |}.

(** The two entries [FindNodeByNames] writes around a lookup that misses. *)
Definition looking (log : Logger) (nodeName : string) : LogEntry :=
  entry_of (V 1 log) "looking for existing node by name" [("name", nodeName)].

Definition missing (log : Logger) (nodeName : string) : LogEntry :=
  entry_of log ("node with name " ++ nodeName ++ " doesn't exist") [].

Section Observations.

Variable client : ServiceClient.

(** The world after one request [req] that left the remote in [r']. *)
Definition asked (w : World client) (req : Request) (r' : Remote client) : World client :=
  {| remote := r'; requests := requests w ++ [req]; logs := logs w |}.

(** The world after one more log entry. *)
Definition logged (w : World client) (e : LogEntry) : World client :=
  {| remote := remote w; requests := requests w; logs := logs w ++ [e] |}.

(** [all_absent names r] is the remote state after the service was asked
    for each of [names] in turn, starting in [r], when every one of them
    was absent: the empty name is absent without a request, another name
    when the service answers 404.  It is [None] as soon as one lookup
    finds a node or fails otherwise. *)
Fixpoint all_absent (names : list string) (r : Remote client) : option (Remote client) :=
  match names with
  | [] => Some r
  | n :: names' =>
      if String.eqb n "" then all_absent names' r
      else match nodes_Get client n r with
           | (inr (ErrDefault404 _), r') => all_absent names' r'
           | _ => None
           end
  end.

(** The emptiness test of a page agrees with its decoding, as it does for
    the port pages of the client library. *)
Definition pages_coherent : Prop :=
  forall (p : Pages client) (ps : list ports.Port),
    ports_ExtractPorts client p = inl ps ->
    Pages_IsEmpty client p = inl (Nat.eqb (length ps) 0).

End Observations.

Arguments asked {client} _ _ _.
Arguments logged {client} _ _.

(** ** An in-memory remote service

    A small executable service, used to run the code on concrete inputs: a
    table of nodes, a table of ports, the verdict of the readiness check, and
    two switches that make it fail. *)

Module InMemory.

Record State : Type := mkState {
  known_nodes : list nodes.Node;
  known_ports : list ports.Port;
  verdict : nodes.NodeValidation;
  outage : bool;
  garbled : bool
}.

Definition unavailable : error :=
  ErrOther "gophercloud.ErrDefault503" "Service Unavailable".

Definition not_found (what : string) : error :=
  ErrDefault404 ("Resource not found: " ++ what).

Definition undecodable : error :=
  ErrOther "*json.SyntaxError" "invalid character '<' looking for beginning of value".

(** A node is addressed by its UUID or by its name. *)
Definition answers_to (ident : string) (n : nodes.Node) : bool :=
  String.eqb (nodes.UUID n) ident || String.eqb (nodes.Name n) ident.

Definition get (ident : string) (s : State) : (nodes.Node + error) * State :=
  if outage s then (inr unavailable, s)
  else match find (answers_to ident) (known_nodes s) with
       | Some n => (inl n, s)
       | None => (inr (not_found ident), s)
       end.

Definition validate (ident : string) (s : State)
  : (nodes.NodeValidation + error) * State :=
  if outage s then (inr unavailable, s)
  else match find (answers_to ident) (known_nodes s) with
       | Some _ => (inl (verdict s), s)
       | None => (inr (not_found ident), s)
       end.

Definition selected (opts : ports.ListOpts) (p : ports.Port) : bool :=
  (String.eqb (ports.opts_Address opts) ""
   || String.eqb (ports.Address p) (ports.opts_Address opts))
  && (String.eqb (ports.opts_NodeUUID opts) ""
      || String.eqb (ports.NodeUUID p) (ports.opts_NodeUUID opts)).

(** A page is the decoded list of ports or a body that does not decode. *)
Definition Page : Type := (list ports.Port + string)%type.

Definition list_all (opts : ports.ListOpts) (s : State) : (Page + error) * State :=
  if outage s then (inr unavailable, s)
  else if garbled s then (inl (inr "<html>"), s)
  else (inl (inl (filter (selected opts) (known_ports s))), s).

Definition extract (p : Page) : list ports.Port + error :=
  match p with
  | inl ps => inl ps
  | inr _ => inr undecodable
  end.

Definition is_empty (p : Page) : bool + error :=
  match p with
  | inl ps => inl (Nat.eqb (length ps) 0)
  | inr _ => inr undecodable
  end.

Definition create (opts : ports.CreateOpts) (s : State) : (ports.Port + error) * State :=
  if outage s then (inr unavailable, s)
  else
    let p := {| ports.UUID := "port-" ++ ports.create_Address opts;
                ports.NodeUUID := ports.create_NodeUUID opts;
                ports.Address := ports.create_Address opts;
                ports.PXEEnabled := match ports.create_PXEEnabled opts with
                                    | Some b => b
                                    | None => true
                                    end |} in
    (inl p, {| known_nodes := known_nodes s;
               known_ports := known_ports s ++ [p];
               verdict := verdict s;
               outage := outage s;
               garbled := garbled s |}).

Definition client : ServiceClient :=
  {| Remote := State;
     Pages := Page;
     nodes_Get := get;
     nodes_Validate := validate;
     ports_List_AllPages := list_all;
     ports_ExtractPorts := extract;
     Pages_IsEmpty := is_empty;
     ports_Create := create |}.

(** A laboratory: node [b], node [N] with one port, a bare node without
    ports, and a stale port whose node is gone.  The readiness check fails
    on boot with the reason [no image] and passes on deploy. *)
Definition lab : State :=
  {| known_nodes :=
       [ {| nodes.UUID := "uuid-b"; nodes.Name := "b"; nodes.ProvisionState := "available" |};
         {| nodes.UUID := "N"; nodes.Name := "worker-0"; nodes.ProvisionState := "manageable" |};
         {| nodes.UUID := "bare"; nodes.Name := "worker-1"; nodes.ProvisionState := "enroll" |} ];
     known_ports :=
       [ {| ports.UUID := "p1"; ports.NodeUUID := "N";
            ports.Address := "52:54:00:aa:bb:cc"; ports.PXEEnabled := true |};
         {| ports.UUID := "p2"; ports.NodeUUID := "gone";
            ports.Address := "52:54:00:00:00:01"; ports.PXEEnabled := true |} ];
     verdict :=
       {| nodes.Boot := {| nodes.Result := false; nodes.Reason := "no image" |};
          nodes.Deploy := {| nodes.Result := true; nodes.Reason := "" |} |};
     outage := false;
     garbled := false |}.

Definition lab_down : State :=
  {| known_nodes := known_nodes lab; known_ports := known_ports lab;
     verdict := verdict lab; outage := true; garbled := false |}.

Definition lab_garbled : State :=
  {| known_nodes := known_nodes lab; known_ports := known_ports lab;
     verdict := verdict lab; outage := false; garbled := true |}.

Definition start (s : State) : World client :=
  @mkWorld client s [] [].

Definition root : Logger := {| level := 0; values := [] |}.

(** The updater is not looked at by the code of this file. *)
Definition no_updater (l : Logger) : unit := tt.

Definition handle (n : nodes.Node) : Node unit :=
  {| node := n; log := WithValues root "NodeID" (nodes.UUID n); updater := tt |}.

End InMemory.

(** ** Nodes and ports of the laboratory *)

Module Lab.

Import InMemory.

Definition node_b : nodes.Node :=
  {| nodes.UUID := "uuid-b"; nodes.Name := "b"; nodes.ProvisionState := "available" |}.

Definition node_N : nodes.Node :=
  {| nodes.UUID := "N"; nodes.Name := "worker-0"; nodes.ProvisionState := "manageable" |}.

Definition node_bare : nodes.Node :=
  {| nodes.UUID := "bare"; nodes.Name := "worker-1"; nodes.ProvisionState := "enroll" |}.

Definition port_N : ports.Port :=
  {| ports.UUID := "p1"; ports.NodeUUID := "N";
     ports.Address := "52:54:00:aa:bb:cc"; ports.PXEEnabled := true |}.

Definition port_stale : ports.Port :=
  {| ports.UUID := "p2"; ports.NodeUUID := "gone";
     ports.Address := "52:54:00:00:00:01"; ports.PXEEnabled := true |}.

End Lab.

(** * Properties *)

(** Unfolds the monad and the primitive effects of a run. *)
Ltac run :=
  unfold bind, ret, Get, Validate_call, List_AllPages, Create, call, Logger_Info;
  cbn [fst snd remote requests logs].

Lemma eqb_empty_false : forall s : string, s <> "" -> String.eqb s "" = false.
Proof. intros s H. now apply String.eqb_neq. Qed.

Lemma append_assoc : forall a b c : string, ((a ++ b) ++ c = a ++ (b ++ c))%string.
Proof. induction a as [|ch a IH]; intros b c; simpl; [reflexivity | now rewrite IH]. Qed.

Section Resolver.

Variable nodeUpdater : Type.
Variable builder : Logger -> nodeUpdater.
Variable client : ServiceClient.

Lemma GetNode_empty : forall log w, GetNode builder client log "" w = (None, None, w).
Proof. reflexivity. Qed.

Lemma GetNode_found : forall log nodeID w n r',
  nodeID <> "" ->
  nodes_Get client nodeID (remote w) = (inl n, r') ->
  GetNode builder client log nodeID w =
    (Some {| node := n;
             log := WithValues log "NodeID" nodeID;
             updater := builder log |},
     None,
     logged (asked w (ReqNodesGet nodeID) r')
            (entry_of (V 1 (WithValues log "NodeID" nodeID)) "found existing node by ID" [])).
Proof.
  intros log0 nodeID w n r' Hne Hget.
  unfold GetNode. rewrite (eqb_empty_false nodeID Hne). run.
  rewrite Hget. reflexivity.
Qed.

Lemma GetNode_404 : forall log nodeID w msg r',
  nodeID <> "" ->
  nodes_Get client nodeID (remote w) = (inr (ErrDefault404 msg), r') ->
  GetNode builder client log nodeID w = (None, None, asked w (ReqNodesGet nodeID) r').
Proof.
  intros log0 nodeID w msg r' Hne Hget.
  unfold GetNode. rewrite (eqb_empty_false nodeID Hne). run.
  rewrite Hget. reflexivity.
Qed.

Lemma GetNode_failed : forall log nodeID w e r',
  nodeID <> "" ->
  nodes_Get client nodeID (remote w) = (inr e, r') ->
  is404 e = false ->
  GetNode builder client log nodeID w =
    (None, Some (Errorf_w ("failed to find node by ID " ++ nodeID ++ ": ") e),
     asked w (ReqNodesGet nodeID) r').
Proof.
  intros log0 nodeID w e r' Hne Hget H404.
  unfold GetNode. rewrite (eqb_empty_false nodeID Hne). run.
  rewrite Hget. destruct e; simpl in H404; try discriminate; reflexivity.
Qed.

(** [GetNode] never returns a node together with an error. *)
Lemma GetNode_not_both : forall log nodeID w nd e w',
  GetNode builder client log nodeID w = (Some nd, Some e, w') -> False.
Proof.
  intros log0 nodeID w nd e w'.
  unfold GetNode. destruct (String.eqb nodeID ""); run; try discriminate.
  destruct (nodes_Get client nodeID (remote w)) as [[n|err] r']; try discriminate.
  destruct err; discriminate.
Qed.

(** C2.  [GetNode] on the empty ID returns no node and no error and leaves
    the world as it was, so no request is sent.  On another ID it sends
    one request for that ID: when the service answers 404 it returns no
    node and no error; when the service fails otherwise it returns no node
    and an error that wraps the failure and whose text names the ID; when
    the service answers with a payload it returns the node holding that
    payload and no error. *)
Theorem GetNode_outcomes : forall (log : Logger) (nodeID : string) (w : World client),
  (nodeID = "" -> GetNode builder client log nodeID w = (None, None, w)) /\
  (nodeID <> "" ->
   forall msg r', nodes_Get client nodeID (remote w) = (inr (ErrDefault404 msg), r') ->
     fst (GetNode builder client log nodeID w) = (None, None) /\
     requests (snd (GetNode builder client log nodeID w)) = requests w ++ [ReqNodesGet nodeID]) /\
  (nodeID <> "" ->
   forall e r', nodes_Get client nodeID (remote w) = (inr e, r') -> is404 e = false ->
     exists err,
       fst (GetNode builder client log nodeID w) = (None, Some err) /\
       Unwrap err = Some e /\
       Error err = ("failed to find node by ID " ++ nodeID ++ ": " ++ Error e)%string /\
       requests (snd (GetNode builder client log nodeID w)) = requests w ++ [ReqNodesGet nodeID]) /\
  (nodeID <> "" ->
   forall n r', nodes_Get client nodeID (remote w) = (inl n, r') ->
     exists nd,
       fst (GetNode builder client log nodeID w) = (Some nd, None) /\
       node nd = n /\
       requests (snd (GetNode builder client log nodeID w)) = requests w ++ [ReqNodesGet nodeID]).
Proof.
  intros log0 nodeID w. repeat split.
  - intros ->. apply GetNode_empty.
  - rewrite (GetNode_404 log0 nodeID w msg r' H H0). reflexivity.
  - rewrite (GetNode_404 log0 nodeID w msg r' H H0). reflexivity.
  - intros Hne e r' Hget H404.
    exists (Errorf_w ("failed to find node by ID " ++ nodeID ++ ": ") e).
    rewrite (GetNode_failed log0 nodeID w e r' Hne Hget H404). simpl.
    repeat split. now rewrite !append_assoc.
  - intros Hne n r' Hget. eexists.
    rewrite (GetNode_found log0 nodeID w n r' Hne Hget). simpl. repeat split.
Qed.

(** *** [AssertNode] *)

(** Whatever [GetNode] returns without a node and without an error comes
    back from [AssertNode] as it is. *)
Lemma AssertNode_keeps_nil_nil : forall log nodeID w w',
  GetNode builder client log nodeID w = (None, None, w') ->
  AssertNode builder client log nodeID w = (None, None, w').
Proof.
  intros log0 nodeID w w' H. unfold AssertNode. run. now rewrite H.
Qed.

(** A failure of [GetNode] is replaced by the text [not found]. *)
Lemma AssertNode_replaces_error : forall log nodeID w e w',
  GetNode builder client log nodeID w = (None, Some e, w') ->
  AssertNode builder client log nodeID w =
    (None, Some (errorString ("failed to find node by ID " ++ nodeID ++ ": not found")), w').
Proof.
  intros log0 nodeID w e w' H. unfold AssertNode. run. now rewrite H.
Qed.

(** *** [FindNodeByNames] *)

Lemma looked_up_app : forall out out',
  looked_up (out ++ out') = looked_up out ++ looked_up out'.
Proof. intros. unfold looked_up. now rewrite flat_map_app. Qed.

Lemma announced_looking : forall l nodeName,
  announced (entry_of l "looking for existing node by name" [("name", nodeName)])
  = [nodeName].
Proof.
  intros l nodeName. unfold announced, entry_of. cbn [entry_msg entry_values].
  rewrite rev_app_distr. reflexivity.
Qed.

(** One turn of the loop on a name that is not there. *)
Lemma FindNodeByNames_miss : forall log nodeName names w w1,
  GetNode builder client log nodeName (logged w (looking log nodeName)) = (None, None, w1) ->
  FindNodeByNames builder client log (nodeName :: names) w =
  FindNodeByNames builder client log names (logged w1 (missing log nodeName)).
Proof.
  intros log0 nodeName names w w1 H. cbn [FindNodeByNames]. run.
  unfold logged, looking in H. rewrite H. reflexivity.
Qed.

(** The turns of the loop on a run of absent names: the loop goes on with
    the names that follow, the service was asked for the absent names in
    their order, and each of them was announced in the log. *)
Lemma FindNodeByNames_skip : forall log pre names w r1,
  all_absent client pre (remote w) = Some r1 ->
  exists w1,
    FindNodeByNames builder client log (pre ++ names) w =
    FindNodeByNames builder client log names w1 /\
    remote w1 = r1 /\
    requests w1 = requests w ++ lookups pre /\
    looked_up (logs w1) = looked_up (logs w) ++ pre.
Proof.
  intros log0 pre names. induction pre as [|a pre IH]; intros w r1 Habs.
  - simpl in Habs. injection Habs as <-. exists w. unfold lookups. simpl.
    now rewrite !app_nil_r.
  - cbn [all_absent] in Habs. rewrite <- app_comm_cons.
    destruct (String.eqb a "") eqn:Ea.
    + apply String.eqb_eq in Ea. subst a.
      destruct (IH (logged (logged w (looking log0 "")) (missing log0 "")) r1 Habs)
        as (w1 & Hrun & Hrem & Hreq & Hlog).
      exists w1. rewrite (FindNodeByNames_miss log0 "" (pre ++ names) w
                            (logged w (looking log0 ""))) by apply GetNode_empty.
      repeat split; try assumption.
      rewrite Hlog. cbn [logged logs]. rewrite !looked_up_app.
      unfold looking at 1. unfold looked_up at 2 3. cbn [flat_map].
      rewrite announced_looking. simpl. now rewrite <- !app_assoc.
    + apply String.eqb_neq in Ea.
      destruct (nodes_Get client a (remote w)) as [[n|e] r'] eqn:Hget; try discriminate.
      destruct e as [msg| | |]; try discriminate.
      pose proof (GetNode_404 log0 a (logged w (looking log0 a)) msg r' Ea Hget) as Hmiss.
      destruct (IH (logged (asked (logged w (looking log0 a)) (ReqNodesGet a) r')
                           (missing log0 a)) r1 Habs)
        as (w1 & Hrun & Hrem & Hreq & Hlog).
      exists w1. rewrite (FindNodeByNames_miss log0 a (pre ++ names) w _ Hmiss).
      repeat split; try assumption.
      * rewrite Hreq. cbn [logged asked requests]. unfold lookups. cbn [filter].
        apply String.eqb_neq in Ea. rewrite Ea. simpl. now rewrite <- app_assoc.
      * rewrite Hlog. cbn [logged asked logs]. rewrite !looked_up_app.
        unfold looking at 1. unfold looked_up at 2 3. cbn [flat_map].
        rewrite announced_looking. simpl. now rewrite <- !app_assoc.
Qed.

(** C3.  When the names in [pre] are all absent, looked up in their order:
    [FindNodeByNames] on [pre] alone returns no node and no error; when the
    next name [n] is found, it returns that node and no error whatever
    names follow; when the lookup of [n] fails for another reason than
    not-found, it returns an error that wraps the failure.  In each case
    the requests sent and the names announced are those of [pre], in their
    order, then [n]: no later name is looked up. *)
Theorem FindNodeByNames_first_match : forall (log : Logger) (pre : list string)
    (w : World client) (r1 : Remote client),
  all_absent client pre (remote w) = Some r1 ->
  (fst (FindNodeByNames builder client log pre w) = (None, None) /\
   requests (snd (FindNodeByNames builder client log pre w)) = requests w ++ lookups pre /\
   looked_up (logs (snd (FindNodeByNames builder client log pre w)))
     = looked_up (logs w) ++ pre) /\
  (forall n post nd r2,
     n <> "" -> nodes_Get client n r1 = (inl nd, r2) ->
     (exists found,
        fst (FindNodeByNames builder client log (pre ++ n :: post) w) = (Some found, None) /\
        node found = nd) /\
     requests (snd (FindNodeByNames builder client log (pre ++ n :: post) w))
       = requests w ++ lookups pre ++ [ReqNodesGet n] /\
     looked_up (logs (snd (FindNodeByNames builder client log (pre ++ n :: post) w)))
       = looked_up (logs w) ++ pre ++ [n]) /\
  (forall n post e r2,
     n <> "" -> nodes_Get client n r1 = (inr e, r2) -> is404 e = false ->
     (exists err inner,
        fst (FindNodeByNames builder client log (pre ++ n :: post) w) = (None, Some err) /\
        Unwrap err = Some inner /\ Unwrap inner = Some e) /\
     requests (snd (FindNodeByNames builder client log (pre ++ n :: post) w))
       = requests w ++ lookups pre ++ [ReqNodesGet n] /\
     looked_up (logs (snd (FindNodeByNames builder client log (pre ++ n :: post) w)))
       = looked_up (logs w) ++ pre ++ [n]).
Proof.
  intros log0 pre w r1 Habs. split; [|split].
  - destruct (FindNodeByNames_skip log0 pre [] w r1 Habs)
      as (w1 & Hrun & _ & Hreq & Hlog).
    rewrite app_nil_r in Hrun. rewrite Hrun. cbn [FindNodeByNames]. unfold ret.
    cbn [fst snd]. auto.
  - intros n post nd r2 Hne Hget.
    destruct (FindNodeByNames_skip log0 pre (n :: post) w r1 Habs)
      as (w1 & Hrun & Hrem & Hreq & Hlog).
    rewrite Hrun. cbn [FindNodeByNames]. run.
    rewrite <- Hrem in Hget.
    pose proof (GetNode_found log0 n (logged w1 (looking log0 n)) nd r2 Hne Hget) as Hg.
    unfold logged, looking in Hg. rewrite Hg.
    cbn [fst snd logged asked remote requests logs]. split; [|split].
    + eexists. split; reflexivity.
    + rewrite Hreq. now rewrite <- app_assoc.
    + rewrite !looked_up_app, Hlog. unfold looked_up at 2 3 4. cbn [flat_map].
      unfold looking. rewrite announced_looking. simpl. now rewrite <- !app_assoc.
  - intros n post e r2 Hne Hget H404.
    destruct (FindNodeByNames_skip log0 pre (n :: post) w r1 Habs)
      as (w1 & Hrun & Hrem & Hreq & Hlog).
    rewrite Hrun. cbn [FindNodeByNames]. run.
    rewrite <- Hrem in Hget.
    pose proof (GetNode_failed log0 n (logged w1 (looking log0 n)) e r2 Hne Hget H404) as Hg.
    unfold logged, looking in Hg. rewrite Hg.
    cbn [fst snd logged asked remote requests logs]. split; [|split].
    + do 2 eexists. repeat split.
    + rewrite Hreq. now rewrite <- app_assoc.
    + rewrite !looked_up_app, Hlog. unfold looked_up at 2 3. cbn [flat_map].
      unfold looking. rewrite announced_looking. simpl. now rewrite <- !app_assoc.
Qed.

(** *** [FindNodeByMAC] *)

Lemma FindNodeByMAC_list_failed : forall log mac w e r1,
  ports_List_AllPages client (ports_by_address mac) (remote w) = (inr e, r1) ->
  FindNodeByMAC builder client log mac w
  = (None, Some e, asked w (ReqPortsList (ports_by_address mac)) r1).
Proof.
  intros log0 mac w e r1 H. unfold FindNodeByMAC, findNodeIDByMAC. run.
  unfold ports_by_address in H. rewrite H. reflexivity.
Qed.

Lemma FindNodeByMAC_undecodable : forall log mac w pages e r1,
  ports_List_AllPages client (ports_by_address mac) (remote w) = (inl pages, r1) ->
  ports_ExtractPorts client pages = inr e ->
  FindNodeByMAC builder client log mac w
  = (None, Some e, asked w (ReqPortsList (ports_by_address mac)) r1).
Proof.
  intros log0 mac w pages e r1 H He. unfold FindNodeByMAC, findNodeIDByMAC. run.
  unfold ports_by_address in H. rewrite H, He. reflexivity.
Qed.

Lemma FindNodeByMAC_no_port : forall log mac w pages r1,
  ports_List_AllPages client (ports_by_address mac) (remote w) = (inl pages, r1) ->
  ports_ExtractPorts client pages = inl [] ->
  FindNodeByMAC builder client log mac w
  = (None, None, asked w (ReqPortsList (ports_by_address mac)) r1).
Proof.
  intros log0 mac w pages r1 H He. unfold FindNodeByMAC, findNodeIDByMAC. run.
  unfold ports_by_address in H. rewrite H, He. reflexivity.
Qed.

(** With a port, the result is the one of [GetNode] on the owner of the
    first port.  The early return on an empty owner gives what [GetNode]
    gives on the empty ID. *)
Lemma FindNodeByMAC_first_port : forall log mac w pages port0 others r1,
  ports_List_AllPages client (ports_by_address mac) (remote w) = (inl pages, r1) ->
  ports_ExtractPorts client pages = inl (port0 :: others) ->
  FindNodeByMAC builder client log mac w
  = GetNode builder client log (ports.NodeUUID port0)
      (asked w (ReqPortsList (ports_by_address mac)) r1).
Proof.
  intros log0 mac w pages port0 others r1 H He.
  unfold FindNodeByMAC, findNodeIDByMAC. run.
  unfold ports_by_address in H. rewrite H, He. cbn [is_nil negb orb].
  rewrite orb_false_r.
  destruct (String.eqb (ports.NodeUUID port0) "") eqn:E; [|reflexivity].
  apply String.eqb_eq in E. rewrite E. reflexivity.
Qed.

(** C4.  [FindNodeByMAC] first lists the ports with the given address.  A
    failure of the listing or of its decoding is returned as the error; no
    port gives no node and no error; with one port or more the result is
    the one of [GetNode] on the owner of the first port, so a failure of
    that lookup is returned as an error, and a MAC registered to exactly
    one port of a node [N] (node IDs are not empty) gives node [N]. *)
Theorem FindNodeByMAC_two_stage : forall (log : Logger) (mac : string)
    (w : World client) (res : Pages client + error) (r1 : Remote client),
  ports_List_AllPages client (ports_by_address mac) (remote w) = (res, r1) ->
  (forall e, res = inr e ->
     FindNodeByMAC builder client log mac w
     = (None, Some e, asked w (ReqPortsList (ports_by_address mac)) r1)) /\
  (forall pages e, res = inl pages -> ports_ExtractPorts client pages = inr e ->
     FindNodeByMAC builder client log mac w
     = (None, Some e, asked w (ReqPortsList (ports_by_address mac)) r1)) /\
  (forall pages, res = inl pages -> ports_ExtractPorts client pages = inl [] ->
     FindNodeByMAC builder client log mac w
     = (None, None, asked w (ReqPortsList (ports_by_address mac)) r1)) /\
  (forall pages port0 others,
     res = inl pages -> ports_ExtractPorts client pages = inl (port0 :: others) ->
     FindNodeByMAC builder client log mac w
     = GetNode builder client log (ports.NodeUUID port0)
         (asked w (ReqPortsList (ports_by_address mac)) r1)) /\
  (forall pages port0 others e r2,
     res = inl pages -> ports_ExtractPorts client pages = inl (port0 :: others) ->
     ports.NodeUUID port0 <> "" ->
     nodes_Get client (ports.NodeUUID port0) r1 = (inr e, r2) -> is404 e = false ->
     exists err,
       fst (FindNodeByMAC builder client log mac w) = (None, Some err) /\
       Unwrap err = Some e) /\
  (forall pages port0 N nd r2,
     res = inl pages -> ports_ExtractPorts client pages = inl [port0] ->
     ports.NodeUUID port0 = N -> N <> "" ->
     nodes_Get client N r1 = (inl nd, r2) ->
     exists found,
       fst (FindNodeByMAC builder client log mac w) = (Some found, None) /\
       node found = nd).
Proof.
  intros log0 mac w res r1 Hlist. repeat split.
  - intros e ->. now apply FindNodeByMAC_list_failed.
  - intros pages e -> He. now apply FindNodeByMAC_undecodable with pages.
  - intros pages -> He. now apply FindNodeByMAC_no_port with pages.
  - intros pages port0 others -> He. now apply FindNodeByMAC_first_port with pages others.
  - intros pages port0 others e r2 -> He Hne Hget H404.
    rewrite (FindNodeByMAC_first_port log0 mac w pages port0 others r1 Hlist He).
    rewrite (GetNode_failed log0 _ (asked w _ r1) e r2 Hne Hget H404).
    eexists. split; reflexivity.
  - intros pages port0 N nd r2 -> He <- Hne Hget.
    rewrite (FindNodeByMAC_first_port log0 mac w pages port0 [] r1 Hlist He).
    rewrite (GetNode_found log0 _ (asked w _ r1) nd r2 Hne Hget).
    eexists. split; reflexivity.
Qed.

(** C9.  When the listing yields a port whose owner the service then
    reports as not found, [FindNodeByMAC] returns no node and no error:
    the same result as for an address that no port carries. *)
Theorem FindNodeByMAC_stale_port : forall (log : Logger) (mac : string)
    (w : World client) (pages : Pages client) (r1 r2 : Remote client)
    (port0 : ports.Port) (others : list ports.Port) (msg : string),
  ports_List_AllPages client (ports_by_address mac) (remote w) = (inl pages, r1) ->
  ports_ExtractPorts client pages = inl (port0 :: others) ->
  ports.NodeUUID port0 <> "" ->
  nodes_Get client (ports.NodeUUID port0) r1 = (inr (ErrDefault404 msg), r2) ->
  fst (FindNodeByMAC builder client log mac w) = (None, None) /\
  (forall mac' w' pages' r1',
     ports_List_AllPages client (ports_by_address mac') (remote w') = (inl pages', r1') ->
     ports_ExtractPorts client pages' = inl [] ->
     fst (FindNodeByMAC builder client log mac' w')
     = fst (FindNodeByMAC builder client log mac w)).
Proof.
  intros log0 mac w pages r1 r2 port0 others msg Hlist He Hne Hget.
  assert (Hstale : fst (FindNodeByMAC builder client log0 mac w) = (None, None)).
  { rewrite (FindNodeByMAC_first_port log0 mac w pages port0 others r1 Hlist He).
    now rewrite (GetNode_404 log0 _ (asked w _ r1) msg r2 Hne Hget). }
  split; [exact Hstale|].
  intros mac' w' pages' r1' Hlist' He'.
  rewrite Hstale. now rewrite (FindNodeByMAC_no_port log0 mac' w' pages' r1' Hlist' He').
Qed.

End Resolver.

Section Handle.

Variable nodeUpdater : Type.
Variable client : ServiceClient.

(** *** [Validate] *)

Lemma Validate_answered : forall (n : Node nodeUpdater) w vr r1,
  nodes_Validate client (nodes.UUID (node n)) (remote w) = (inl vr, r1) ->
  fst (Validate client n w)
  = ((if nodes.Result (nodes.Boot vr) then [] else [nodes.Reason (nodes.Boot vr)])
     ++ (if nodes.Result (nodes.Deploy vr) then [] else [nodes.Reason (nodes.Deploy vr)]),
     None).
Proof.
  intros n w vr r1 H. unfold Validate. run. rewrite H. cbn [fst].
  destruct (nodes.Result (nodes.Boot vr)), (nodes.Result (nodes.Deploy vr)); reflexivity.
Qed.

Lemma Validate_call_failed : forall (n : Node nodeUpdater) w e r1,
  nodes_Validate client (nodes.UUID (node n)) (remote w) = (inr e, r1) ->
  fst (Validate client n w) = ([], Some e).
Proof.
  intros n w e r1 H. unfold Validate. run. now rewrite H.
Qed.

(** C5.  When the service answers the validation call, [Validate] returns
    no error and the list made of the boot reason if boot failed, then the
    deploy reason if deploy failed; with boot failing for [no image] and
    deploy passing the list is exactly that one reason. *)
Theorem Validate_failures_are_data : forall (n : Node nodeUpdater) (w : World client)
    (vr : nodes.NodeValidation) (r1 : Remote client),
  nodes_Validate client (nodes.UUID (node n)) (remote w) = (inl vr, r1) ->
  fst (Validate client n w)
  = ((if nodes.Result (nodes.Boot vr) then [] else [nodes.Reason (nodes.Boot vr)])
     ++ (if nodes.Result (nodes.Deploy vr) then [] else [nodes.Reason (nodes.Deploy vr)]),
     None) /\
  (nodes.Boot vr = {| nodes.Result := false; nodes.Reason := "no image" |} ->
   nodes.Result (nodes.Deploy vr) = true ->
   fst (Validate client n w) = (["no image"], None)).
Proof.
  intros n w vr r1 H. split.
  - now apply Validate_answered with r1.
  - intros Hboot Hdeploy. rewrite (Validate_answered n w vr r1 H).
    rewrite Hboot, Hdeploy. reflexivity.
Qed.

(** C6.  When the validation call itself fails, the error [Validate]
    returns is that very error value, not a wrapper around it. *)
Theorem Validate_error_unwrapped : forall (n : Node nodeUpdater) (w : World client)
    (e : error) (r1 : Remote client),
  nodes_Validate client (nodes.UUID (node n)) (remote w) = (inr e, r1) ->
  snd (fst (Validate client n w)) = Some e.
Proof.
  intros n w e r1 H. now rewrite (Validate_call_failed n w e r1 H).
Qed.

(** C10.  Whenever [Validate] returns an error, the list of failures it
    returns with it is nil. *)
Theorem Validate_error_without_failures : forall (n : Node nodeUpdater) (w : World client),
  snd (fst (Validate client n w)) <> None ->
  fst (fst (Validate client n w)) = [].
Proof.
  intros n w.
  destruct (nodes_Validate client (nodes.UUID (node n)) (remote w)) as [[vr|e] r1] eqn:H.
  - rewrite (Validate_answered n w vr r1 H). cbn [fst snd]. congruence.
  - now rewrite (Validate_call_failed n w e r1 H).
Qed.

(** *** [HasPorts] *)

Lemma HasPorts_request : forall (n : Node nodeUpdater) w,
  requests (snd (HasPorts client n w))
  = requests w ++ [ReqPortsList (ports_of_node (nodes.UUID (node n)))].
Proof.
  intros n w. unfold HasPorts. run. fold (ports_of_node (nodes.UUID (node n))).
  destruct (ports_List_AllPages client _ (remote w)) as [[pages|e] r1]; [|reflexivity].
  destruct (Pages_IsEmpty client pages) as [[|]|e]; reflexivity.
Qed.

Lemma HasPorts_checked : forall (n : Node nodeUpdater) w pages r1 empty,
  ports_List_AllPages client (ports_of_node (nodes.UUID (node n))) (remote w)
    = (inl pages, r1) ->
  Pages_IsEmpty client pages = inl empty ->
  fst (HasPorts client n w) = (negb empty, None).
Proof.
  intros n w pages r1 empty H He. unfold HasPorts. run.
  unfold ports_of_node in H. rewrite H, He. now destruct empty.
Qed.

(** C7.  [HasPorts] sends one request, the listing of the ports of the
    node.  A failure of the paging or of the emptiness check comes back
    wrapped, with [false]; an empty listing gives [false] and no error, a
    listing that is not empty gives [true] and no error.  When the
    emptiness check agrees with the decoding of the pages, the answer is
    [false] for zero ports and [true] for one or more. *)
Theorem HasPorts_outcomes : forall (n : Node nodeUpdater) (w : World client)
    (res : Pages client + error) (r1 : Remote client),
  ports_List_AllPages client (ports_of_node (nodes.UUID (node n))) (remote w)
    = (res, r1) ->
  requests (snd (HasPorts client n w))
    = requests w ++ [ReqPortsList (ports_of_node (nodes.UUID (node n)))] /\
  (forall e, res = inr e ->
     exists err,
       fst (HasPorts client n w) = (false, Some err) /\
       Unwrap err = Some e /\
       Error err = ("failed to page over list of ports: " ++ Error e)%string) /\
  (forall pages e, res = inl pages -> Pages_IsEmpty client pages = inr e ->
     exists err,
       fst (HasPorts client n w) = (false, Some err) /\
       Unwrap err = Some e /\
       Error err = ("failed to check port list status: " ++ Error e)%string) /\
  (forall pages, res = inl pages -> Pages_IsEmpty client pages = inl true ->
     fst (HasPorts client n w) = (false, None)) /\
  (forall pages, res = inl pages -> Pages_IsEmpty client pages = inl false ->
     fst (HasPorts client n w) = (true, None)) /\
  (pages_coherent client ->
   forall pages ps, res = inl pages -> ports_ExtractPorts client pages = inl ps ->
     fst (HasPorts client n w)
     = (match ps with [] => false | _ :: _ => true end, None)).
Proof.
  intros n w res r1 H. split; [apply HasPorts_request|]. repeat split.
  - intros e ->. unfold HasPorts. run. unfold ports_of_node in H. rewrite H.
    eexists. repeat split.
  - intros pages e -> He. unfold HasPorts. run. unfold ports_of_node in H.
    rewrite H, He. eexists. repeat split.
  - intros pages -> He. now rewrite (HasPorts_checked n w pages r1 true H He).
  - intros pages -> He. now rewrite (HasPorts_checked n w pages r1 false H He).
  - intros Hcoh pages ps -> Hps.
    rewrite (HasPorts_checked n w pages r1 _ H (Hcoh pages ps Hps)).
    now destruct ps.
Qed.

End Handle.

(** ** The admission hooks *)

(** C8.  Whatever the subscription and the old object, [ValidateUpdate]
    returns an error, whose text tells to recreate the subscription, and
    [ValidateDelete] returns no error. *)
Theorem ValidateUpdate_rejects_ValidateDelete_allows :
  forall (Object : Type) (s : v1alpha1.BMCEventSubscription) (old : Object)
         (out : list LogEntry),
    (exists err,
       fst (v1alpha1.ValidateUpdate Object s old out) = Some err /\
       Error err = "subscriptions cannot be updated, please recreate it") /\
    v1alpha1.ValidateDelete s = None.
Proof.
  intros Object s old out. split.
  - eexists. split; reflexivity.
  - reflexivity.
Qed.

(** ** The code on the laboratory service *)

Import InMemory Lab.

(** C1.  [AssertNode] returns neither a node nor an error on the empty ID,
    whatever the client, and on the ID [zzz], which the laboratory does not
    know: the test that should catch the missing node asks for an error
    where it should ask for none. *)
Theorem AssertNode_nil_node_nil_error :
  (forall (nodeUpdater : Type) (builder : Logger -> nodeUpdater)
          (client : ServiceClient) (log : Logger) (w : World client),
     AssertNode builder client log "" w = (None, None, w)) /\
  fst (AssertNode no_updater client root "zzz" (start lab)) = (None, None).
Proof.
  split.
  - intros nodeUpdater builder c log0 w. apply AssertNode_keeps_nil_nil.
    apply GetNode_empty.
  - reflexivity.
Qed.

Lemma GetNode_outcomes_witness :
  GetNode no_updater client root "" (start lab) = (None, None, start lab) /\
  fst (GetNode no_updater client root "zzz" (start lab)) = (None, None) /\
  (exists err,
     fst (GetNode no_updater client root "b" (start lab_down)) = (None, Some err) /\
     Unwrap err = Some unavailable) /\
  (exists nd,
     fst (GetNode no_updater client root "b" (start lab)) = (Some nd, None) /\
     node nd = node_b).
Proof.
  split; [|split; [|split]].
  - destruct (GetNode_outcomes unit no_updater client root "" (start lab)) as [H _].
    apply H. reflexivity.
  - destruct (GetNode_outcomes unit no_updater client root "zzz" (start lab)) as [_ [H _]].
    apply (H ltac:(discriminate) "Resource not found: zzz" lab eq_refl).
  - destruct (GetNode_outcomes unit no_updater client root "b" (start lab_down))
      as [_ [_ [H _]]].
    destruct (H ltac:(discriminate) unavailable lab_down eq_refl eq_refl)
      as [err [Hres [Hun _]]].
    exists err. split; assumption.
  - destruct (GetNode_outcomes unit no_updater client root "b" (start lab))
      as [_ [_ [_ H]]].
    destruct (H ltac:(discriminate) node_b lab eq_refl) as [nd [Hres [Hnd _]]].
    exists nd. split; assumption.
Defined.

Lemma FindNodeByNames_first_match_witness :
  all_absent client ["a"] lab = Some lab /\
  (exists found,
     fst (FindNodeByNames no_updater client root ["a"; "b"; "c"] (start lab))
       = (Some found, None) /\
     node found = node_b) /\
  requests (snd (FindNodeByNames no_updater client root ["a"; "b"; "c"] (start lab)))
    = [ReqNodesGet "a"; ReqNodesGet "b"] /\
  looked_up (logs (snd (FindNodeByNames no_updater client root ["a"; "b"; "c"] (start lab))))
    = ["a"; "b"].
Proof.
  split; [reflexivity|].
  destruct (FindNodeByNames_first_match unit no_updater client root ["a"] (start lab) lab eq_refl)
    as [_ [H _]].
  exact (H "b" ["c"] node_b lab ltac:(discriminate) eq_refl).
Defined.

Lemma FindNodeByMAC_two_stage_witness :
  exists found,
    fst (FindNodeByMAC no_updater client root "52:54:00:aa:bb:cc" (start lab))
      = (Some found, None) /\
    node found = node_N.
Proof.
  destruct (FindNodeByMAC_two_stage unit no_updater client root "52:54:00:aa:bb:cc"
              (start lab) (inl (inl [port_N])) lab eq_refl)
    as [_ [_ [_ [_ [_ H]]]]].
  exact (H (inl [port_N]) port_N "N" node_N lab eq_refl eq_refl eq_refl
           ltac:(discriminate) eq_refl).
Defined.

Lemma FindNodeByMAC_stale_port_witness :
  fst (FindNodeByMAC no_updater client root "52:54:00:00:00:01" (start lab)) = (None, None).
Proof.
  destruct (FindNodeByMAC_stale_port unit no_updater client root "52:54:00:00:00:01"
              (start lab) (inl [port_stale]) lab lab port_stale []
              "Resource not found: gone" eq_refl eq_refl ltac:(discriminate) eq_refl)
    as [H _].
  exact H.
Defined.

Lemma Validate_failures_are_data_witness :
  fst (Validate client (handle node_N) (start lab)) = (["no image"], None).
Proof.
  destruct (Validate_failures_are_data unit client (handle node_N) (start lab)
              (verdict lab) lab eq_refl) as [_ H].
  exact (H eq_refl eq_refl).
Defined.

Lemma Validate_error_unwrapped_witness :
  snd (fst (Validate client (handle node_N) (start lab_down))) = Some unavailable.
Proof.
  exact (Validate_error_unwrapped unit client (handle node_N) (start lab_down)
           unavailable lab_down eq_refl).
Defined.

Lemma Validate_error_without_failures_witness :
  snd (fst (Validate client (handle node_N) (start lab_down))) <> None /\
  fst (fst (Validate client (handle node_N) (start lab_down))) = [].
Proof.
  assert (H : snd (fst (Validate client (handle node_N) (start lab_down))) <> None)
    by discriminate.
  split; [exact H|].
  exact (Validate_error_without_failures unit client (handle node_N) (start lab_down) H).
Defined.

Lemma HasPorts_outcomes_witness :
  pages_coherent client /\
  fst (HasPorts client (handle node_bare) (start lab)) = (false, None) /\
  fst (HasPorts client (handle node_N) (start lab)) = (true, None) /\
  (exists err,
     fst (HasPorts client (handle node_N) (start lab_garbled)) = (false, Some err) /\
     Unwrap err = Some undecodable) /\
  (exists err,
     fst (HasPorts client (handle node_N) (start lab_down)) = (false, Some err) /\
     Unwrap err = Some unavailable).
Proof.
  assert (Hcoh : pages_coherent client).
  { intros [ps|body] ps' H; simpl in H; [|discriminate].
    injection H as <-. reflexivity. }
  split; [exact Hcoh|]. split; [|split; [|split]].
  - destruct (HasPorts_outcomes unit client (handle node_bare) (start lab)
                (inl (inl [])) lab eq_refl) as [_ [_ [_ [_ [_ H]]]]].
    exact (H Hcoh (inl []) [] eq_refl eq_refl).
  - destruct (HasPorts_outcomes unit client (handle node_N) (start lab)
                (inl (inl [port_N])) lab eq_refl) as [_ [_ [_ [_ [_ H]]]]].
    exact (H Hcoh (inl [port_N]) [port_N] eq_refl eq_refl).
  - destruct (HasPorts_outcomes unit client (handle node_N) (start lab_garbled)
                (inl (inr "<html>")) lab_garbled eq_refl) as [_ [_ [H _]]].
    destruct (H (inr "<html>") undecodable eq_refl eq_refl) as [err [Hres [Hun _]]].
    exists err. split; assumption.
  - destruct (HasPorts_outcomes unit client (handle node_N) (start lab_down)
                (inr unavailable) lab_down eq_refl) as [_ [H _]].
    destruct (H unavailable eq_refl) as [err [Hres [Hun _]]].
    exists err. split; assumption.
Defined.

(** * Further properties of the resolver *)

Section ResolverEffects.

Variable nodeUpdater : Type.
Variable builder : Logger -> nodeUpdater.
Variable client : ServiceClient.

(** The four ways a run of [GetNode] can go. *)
Lemma GetNode_cases : forall lg nodeID (w : World client),
  (nodeID = "" /\ GetNode builder client lg nodeID w = (None, None, w)) \/
  (nodeID <> "" /\ exists n r',
     GetNode builder client lg nodeID w =
       (Some {| node := n;
                log := WithValues lg "NodeID" nodeID;
                updater := builder lg |},
        None,
        logged (asked w (ReqNodesGet nodeID) r')
               (entry_of (V 1 (WithValues lg "NodeID" nodeID))
                         "found existing node by ID" []))) \/
  (nodeID <> "" /\ exists r',
     GetNode builder client lg nodeID w = (None, None, asked w (ReqNodesGet nodeID) r')) \/
  (nodeID <> "" /\ exists e r',
     GetNode builder client lg nodeID w =
       (None, Some (Errorf_w ("failed to find node by ID " ++ nodeID ++ ": ") e),
        asked w (ReqNodesGet nodeID) r')).
Proof.
  intros lg nodeID w. destruct (String.eqb nodeID "") eqn:E.
  - left. apply String.eqb_eq in E. subst. split; [reflexivity | apply GetNode_empty].
  - right. apply String.eqb_neq in E.
    destruct (nodes_Get client nodeID (remote w)) as [[n|e] r'] eqn:Hget.
    + left. split; [assumption|]. exists n, r'. now apply GetNode_found.
    + right. destruct (is404 e) eqn:H404.
      * left. split; [assumption|]. exists r'.
        destruct e; try discriminate. now apply GetNode_404 with msg.
      * right. split; [assumption|]. exists e, r'. now apply GetNode_failed.
Qed.

Lemma lookups_one : forall nodeID,
  nodeID <> "" -> lookups [nodeID] = [ReqNodesGet nodeID].
Proof.
  intros nodeID H. unfold lookups. cbn [filter].
  rewrite (eqb_empty_false nodeID H). reflexivity.
Qed.

Lemma GetNode_requests : forall lg nodeID (w : World client),
  requests (snd (GetNode builder client lg nodeID w)) = requests w ++ lookups [nodeID].
Proof.
  intros lg nodeID w.
  destruct (GetNode_cases lg nodeID w)
    as [[-> H] | [[Hne (n & r' & H)] | [[Hne (r' & H)] | [Hne (e & r' & H)]]]];
    rewrite H; cbn [snd logged asked requests];
    [now rewrite app_nil_r | | |]; now rewrite lookups_one.
Qed.

Lemma GetNode_announces_nothing : forall lg nodeID (w : World client),
  looked_up (logs (snd (GetNode builder client lg nodeID w))) = looked_up (logs w).
Proof.
  intros lg nodeID w.
  destruct (GetNode_cases lg nodeID w)
    as [[-> H] | [[Hne (n & r' & H)] | [[Hne (r' & H)] | [Hne (e & r' & H)]]]];
    rewrite H; cbn [snd logged asked logs]; try reflexivity.
  rewrite looked_up_app. unfold looked_up at 2. simpl. now rewrite app_nil_r.
Qed.

(** X1.  [GetNode] sends one request, the lookup of the ID, unless the ID is
    empty, and nothing else; it writes one entry to the log when it returns
    a node, under the logger of that node, and none otherwise. *)
Theorem GetNode_effects : forall (lg : Logger) (nodeID : string) (w : World client),
  requests (snd (GetNode builder client lg nodeID w)) = requests w ++ lookups [nodeID] /\
  logs (snd (GetNode builder client lg nodeID w))
  = logs w ++ match fst (fst (GetNode builder client lg nodeID w)) with
              | Some nd => [entry_of (V 1 (log nd)) "found existing node by ID" []]
              | None => []
              end.
Proof.
  intros lg nodeID w. split; [apply GetNode_requests|].
  destruct (GetNode_cases lg nodeID w)
    as [[-> H] | [[Hne (n & r' & H)] | [[Hne (r' & H)] | [Hne (e & r' & H)]]]];
    rewrite H; cbn [fst snd logged asked logs log]; try reflexivity;
    now rewrite app_nil_r.
Qed.


(** X4.  When the lookup fails for another reason than not-found,
    [AssertNode] returns an error that says [not found] and wraps nothing:
    the cause of the failure cannot be recovered from it. *)
Theorem AssertNode_hides_cause : forall (lg : Logger) (nodeID : string)
    (w : World client) (e : error) (r' : Remote client),
  nodeID <> "" ->
  nodes_Get client nodeID (remote w) = (inr e, r') ->
  is404 e = false ->
  exists err,
    fst (AssertNode builder client lg nodeID w) = (None, Some err) /\
    Unwrap err = None /\
    Error err = ("failed to find node by ID " ++ nodeID ++ ": not found")%string.
Proof.
  intros lg nodeID w e r' Hne Hget H404.
  pose proof (GetNode_failed nodeUpdater builder client lg nodeID w e r' Hne Hget H404) as H.
  rewrite (AssertNode_replaces_error nodeUpdater builder client lg nodeID w _ _ H).
  eexists. repeat split.
Qed.

(** *** [FindNodeByNames] on any list and any service *)

(** The loop always stops after a prefix of the names. *)
Lemma FindNodeByNames_prefix : forall lg names (w : World client),
  exists k,
    k <= length names /\
    requests (snd (FindNodeByNames builder client lg names w))
      = requests w ++ lookups (firstn k names) /\
    looked_up (logs (snd (FindNodeByNames builder client lg names w)))
      = looked_up (logs w) ++ firstn k names /\
    (fst (FindNodeByNames builder client lg names w) = (None, None) -> k = length names) /\
    (fst (fst (FindNodeByNames builder client lg names w)) = None \/
     snd (fst (FindNodeByNames builder client lg names w)) = None).
Proof.
  intros lg names. induction names as [|a names IH]; intros w.
  - exists 0. cbn. unfold lookups. cbn. rewrite !app_nil_r. repeat split; auto.
  - cbn [FindNodeByNames]. run.
    pose proof (GetNode_requests lg a (logged w (looking lg a))) as Hreq.
    pose proof (GetNode_announces_nothing lg a (logged w (looking lg a))) as Hann.
    unfold logged, looking in Hreq, Hann. cbn [requests logs] in Hreq, Hann.
    rewrite looked_up_app in Hann. unfold looked_up at 3 in Hann.
    cbn [flat_map] in Hann. rewrite announced_looking, app_nil_r in Hann.
    destruct (GetNode builder client lg a _) as [[[nd|] [e|]] w1] eqn:HG;
      cbn [snd] in Hreq, Hann.
    + exists 1. cbn [fst snd firstn length].
      split; [lia|]. split; [assumption|]. split; [assumption|].
      split; [discriminate | now left].
    + exists 1. cbn [fst snd requests logs firstn length].
      split; [lia|]. split; [assumption|]. split; [|split; [discriminate | now right]].
      rewrite looked_up_app, Hann. unfold looked_up at 3. simpl.
      now rewrite app_nil_r.
    + exists 1. cbn [fst snd firstn length].
      split; [lia|]. split; [assumption|]. split; [assumption|].
      split; [discriminate | now left].
    + destruct (IH {| remote := remote w1; requests := requests w1;
                      logs := logs w1 ++ [entry_of lg ("node with name " ++ a ++ " doesn't exist") []] |})
        as (k & Hk & Hr & Hl & Hnone & Hnb).
      exists (S k). cbn [requests logs] in Hr, Hl.
      split; [simpl; lia|]. split; [|split; [|split]].
      * rewrite Hr, Hreq. cbn [firstn]. unfold lookups. cbn [filter].
        destruct (negb (String.eqb a "")); cbn [map app];
          rewrite <- !app_assoc; reflexivity.
      * rewrite Hl, looked_up_app, Hann. unfold looked_up at 3. simpl.
        rewrite app_nil_r, <- !app_assoc. reflexivity.
      * intros H. simpl. f_equal. now apply Hnone.
      * exact Hnb.
Qed.

(** X5.  On every list and every service, [FindNodeByNames] looks up a
    prefix of the names and nothing else: the requests it sends and the
    names it announces are those of the first [k] names, in their order.  It
    returns neither a node nor an error only after it went through the whole
    list. *)
Theorem FindNodeByNames_tries_prefix : forall (lg : Logger) (names : list string)
    (w : World client),
  exists k,
    k <= length names /\
    requests (snd (FindNodeByNames builder client lg names w))
      = requests w ++ lookups (firstn k names) /\
    looked_up (logs (snd (FindNodeByNames builder client lg names w)))
      = looked_up (logs w) ++ firstn k names /\
    (fst (FindNodeByNames builder client lg names w) = (None, None) -> k = length names).
Proof.
  intros lg names w.
  destruct (FindNodeByNames_prefix lg names w) as (k & Hk & Hr & Hl & Hn & _).
  exists k. auto.
Qed.

(** X6.  The error of a failed lookup by name tells the name twice over:
    its text is the prefix of [FindNodeByNames], then the prefix of
    [GetNode], both with the name, then the text of the cause. *)
Theorem FindNodeByNames_error_text : forall (lg : Logger) (pre : list string)
    (w : World client) (r1 r2 : Remote client) (n : string) (post : list string)
    (e : error),
  all_absent client pre (remote w) = Some r1 ->
  n <> "" ->
  nodes_Get client n r1 = (inr e, r2) ->
  is404 e = false ->
  exists err,
    fst (FindNodeByNames builder client lg (pre ++ n :: post) w) = (None, Some err) /\
    Error err = ("failed to find node by name " ++ n ++ ": "
                 ++ "failed to find node by ID " ++ n ++ ": " ++ Error e)%string.
Proof.
  intros lg pre w r1 r2 n post e Habs Hne Hget H404.
  destruct (FindNodeByNames_skip nodeUpdater builder client lg pre (n :: post) w r1 Habs)
    as (w1 & Hrun & Hrem & _ & _).
  rewrite Hrun. cbn [FindNodeByNames]. run. rewrite <- Hrem in Hget.
  pose proof (GetNode_failed nodeUpdater builder client lg n
                (logged w1 (looking lg n)) e r2 Hne Hget H404) as Hg.
  unfold logged, looking in Hg. rewrite Hg. cbn [fst].
  eexists. split; [reflexivity|]. unfold Errorf_w. cbn [Error].
  now rewrite !append_assoc.
Qed.

(** *** [findNodeIDByMAC] and [FindNodeByMAC] on any service *)

Lemma findNodeIDByMAC_run : forall lg mac (w : World client),
  exists nodeID err r1,
    findNodeIDByMAC client lg mac w
    = (nodeID, err, asked w (ReqPortsList (ports_by_address mac)) r1) /\
    (err <> None -> nodeID = "").
Proof.
  intros lg mac w. unfold findNodeIDByMAC. run. fold (ports_by_address mac).
  destruct (ports_List_AllPages client _ (remote w)) as [[pages|e] r1].
  - destruct (ports_ExtractPorts client pages) as [[|port0 others]|e].
    + exists "", None, r1. split; [reflexivity | congruence].
    + exists (ports.NodeUUID port0), None, r1. split; [reflexivity | congruence].
    + exists "", (Some e), r1. split; reflexivity.
  - exists "", (Some e), r1. split; reflexivity.
Qed.

(** X7.  [findNodeIDByMAC] sends one request, the listing of the ports with
    the given address, and writes nothing to the log; whenever it returns an
    error the ID it returns is empty. *)
Theorem findNodeIDByMAC_effects : forall (lg : Logger) (mac : string) (w : World client),
  requests (snd (findNodeIDByMAC client lg mac w))
    = requests w ++ [ReqPortsList (ports_by_address mac)] /\
  logs (snd (findNodeIDByMAC client lg mac w)) = logs w /\
  (snd (fst (findNodeIDByMAC client lg mac w)) <> None ->
   fst (fst (findNodeIDByMAC client lg mac w)) = "").
Proof.
  intros lg mac w. destruct (findNodeIDByMAC_run lg mac w) as (nodeID & err & r1 & H & He).
  rewrite H. cbn [fst snd asked requests logs]. auto.
Qed.

Lemma FindNodeByMAC_run : forall lg mac (w : World client),
  exists nodeID err r1,
    findNodeIDByMAC client lg mac w
    = (nodeID, err, asked w (ReqPortsList (ports_by_address mac)) r1) /\
    (err <> None -> nodeID = "") /\
    FindNodeByMAC builder client lg mac w
    = match err with
      | Some _ => (None, err, asked w (ReqPortsList (ports_by_address mac)) r1)
      | None => GetNode builder client lg nodeID
                  (asked w (ReqPortsList (ports_by_address mac)) r1)
      end.
Proof.
  intros lg mac w. destruct (findNodeIDByMAC_run lg mac w) as (nodeID & err & r1 & H & He).
  exists nodeID, err, r1. split; [assumption|]. split; [assumption|].
  unfold FindNodeByMAC. unfold bind at 1. rewrite H.
  destruct err as [e|].
  - cbn [is_nil negb]. rewrite orb_true_r. reflexivity.
  - cbn [is_nil negb]. rewrite orb_false_r.
    destruct (String.eqb nodeID "") eqn:E; [|reflexivity].
    apply String.eqb_eq in E. subst. reflexivity.
Qed.

(** X8.  [FindNodeByMAC] sends the listing of the ports first and then at
    most one request more, the lookup of the ID [findNodeIDByMAC] returned:
    none when that ID is empty, as it is after a failure or without a
    port. *)
Theorem FindNodeByMAC_requests : forall (lg : Logger) (mac : string) (w : World client),
  requests (snd (FindNodeByMAC builder client lg mac w))
  = requests w
    ++ ReqPortsList (ports_by_address mac)
       :: lookups [fst (fst (findNodeIDByMAC client lg mac w))].
Proof.
  intros lg mac w.
  destruct (FindNodeByMAC_run lg mac w) as (nodeID & err & r1 & H & He & Hrun).
  rewrite Hrun, H. cbn [fst]. destruct err as [e|].
  - rewrite (He ltac:(discriminate)). cbn [snd asked requests]. reflexivity.
  - rewrite GetNode_requests. cbn [asked requests]. now rewrite <- app_assoc.
Qed.

(** X2.  None of the four lookups returns a node together with an error. *)
Theorem lookups_never_return_both : forall (lg : Logger) (nodeID mac : string)
    (names : list string) (w : World client),
  (fst (fst (GetNode builder client lg nodeID w)) = None \/
   snd (fst (GetNode builder client lg nodeID w)) = None) /\
  (fst (fst (AssertNode builder client lg nodeID w)) = None \/
   snd (fst (AssertNode builder client lg nodeID w)) = None) /\
  (fst (fst (FindNodeByNames builder client lg names w)) = None \/
   snd (fst (FindNodeByNames builder client lg names w)) = None) /\
  (fst (fst (FindNodeByMAC builder client lg mac w)) = None \/
   snd (fst (FindNodeByMAC builder client lg mac w)) = None).
Proof.
  intros lg nodeID mac names w.
  assert (HG : forall id (w0 : World client),
             fst (fst (GetNode builder client lg id w0)) = None \/
             snd (fst (GetNode builder client lg id w0)) = None).
  { intros id w0.
    destruct (GetNode_cases lg id w0)
      as [[_ H] | [[_ (n & r' & H)] | [[_ (r' & H)] | [_ (e & r' & H)]]]];
      rewrite H; cbn [fst snd]; auto. }
  split; [apply HG|]. split; [|split].
  - unfold AssertNode. run. destruct (HG nodeID w) as [H|H];
      destruct (GetNode builder client lg nodeID w) as [[[nd|] [e|]] w'];
      cbn [fst snd] in *; try discriminate; auto.
  - destruct (FindNodeByNames_prefix lg names w) as (k & _ & _ & _ & _ & H). exact H.
  - destruct (FindNodeByMAC_run lg mac w) as (id & err & r1 & _ & _ & Hrun).
    rewrite Hrun. destruct err; [now left | apply HG].
Qed.

End ResolverEffects.

(** * Further properties of the node handle *)

Section HandleEffects.

Variable nodeUpdater : Type.
Variable client : ServiceClient.

(** *** [CreateBootPort] *)

Lemma CreateBootPort_world : forall (n : Node nodeUpdater) mac (w : World client),
  requests (snd (CreateBootPort client n mac w))
  = requests w
    ++ [ReqPortsCreate {| ports.create_NodeUUID := nodes.UUID (node n);
                          ports.create_Address := mac;
                          ports.create_PXEEnabled := Some true |}] /\
  logs (snd (CreateBootPort client n mac w))
  = logs w
    ++ [entry_of (log n) "creating PXE enabled ironic port for node"
          [("NodeUUID", nodes.UUID (node n)); ("MAC", mac)]].
Proof.
  intros n mac w. unfold CreateBootPort. run.
  destruct (ports_Create client _ (remote w)) as [[p|e] r']; split; reflexivity.
Qed.

(** X9.  [CreateBootPort] sends one request: the creation of a port of the
    node with the given address and PXE enabled.  When the service accepts
    it the result is nil; when the service refuses it the result wraps the
    refusal and its text names the address and the node. *)
Theorem CreateBootPort_outcomes : forall (n : Node nodeUpdater) (mac : string)
    (w : World client) (res : ports.Port + error) (r' : Remote client),
  ports_Create client
    {| ports.create_NodeUUID := nodes.UUID (node n);
       ports.create_Address := mac;
       ports.create_PXEEnabled := Some true |} (remote w) = (res, r') ->
  requests (snd (CreateBootPort client n mac w))
  = requests w
    ++ [ReqPortsCreate {| ports.create_NodeUUID := nodes.UUID (node n);
                          ports.create_Address := mac;
                          ports.create_PXEEnabled := Some true |}] /\
  remote (snd (CreateBootPort client n mac w)) = r' /\
  match res with
  | inl _ => fst (CreateBootPort client n mac w) = None
  | inr e =>
      exists err,
        fst (CreateBootPort client n mac w) = Some err /\
        Unwrap err = Some e /\
        Error err = ("failed to create ironic port " ++ mac ++ " for node "
                     ++ nodes.UUID (node n) ++ ": " ++ Error e)%string
  end.
Proof.
  intros n mac w res r' H. split; [apply CreateBootPort_world|].
  unfold CreateBootPort. run. rewrite H. destruct res as [p|e]; cbn [fst snd remote].
  - split; reflexivity.
  - split; [reflexivity|]. eexists. split; [reflexivity|]. split; [reflexivity|].
    unfold Errorf_w. cbn [Error]. now rewrite !append_assoc.
Qed.

(** X10.  [CreateBootPort] does not look for an existing port: called twice
    with the same address it sends the same creation twice and no listing,
    whatever the service answers. *)
Theorem CreateBootPort_twice : forall (n : Node nodeUpdater) (mac : string)
    (w : World client),
  requests (snd (CreateBootPort client n mac (snd (CreateBootPort client n mac w))))
  = requests w
    ++ [ReqPortsCreate {| ports.create_NodeUUID := nodes.UUID (node n);
                          ports.create_Address := mac;
                          ports.create_PXEEnabled := Some true |};
        ReqPortsCreate {| ports.create_NodeUUID := nodes.UUID (node n);
                          ports.create_Address := mac;
                          ports.create_PXEEnabled := Some true |}].
Proof.
  intros n mac w.
  destruct (CreateBootPort_world n mac (snd (CreateBootPort client n mac w))) as [H2 _].
  destruct (CreateBootPort_world n mac w) as [H1 _].
  rewrite H2, H1, <- app_assoc. reflexivity.
Qed.

(** *** [Validate] *)

(** X11.  Whatever the service answers, [Validate] sends one request, the
    validation of the node by its UUID, and writes one entry to the log
    under the logger of the node. *)
Theorem Validate_effects : forall (n : Node nodeUpdater) (w : World client),
  requests (snd (Validate client n w))
    = requests w ++ [ReqNodesValidate (nodes.UUID (node n))] /\
  logs (snd (Validate client n w))
    = logs w ++ [entry_of (log n) "validating node settings in ironic" []].
Proof.
  intros n w. unfold Validate. run.
  destruct (nodes_Validate client _ (remote w)) as [[vr|e] r1]; split; reflexivity.
Qed.

(** X12.  When the service answers the validation call, the list
    [Validate] returns has one entry per failed check, two at most, and it
    is empty exactly when boot and deploy both pass. *)
Theorem Validate_ready_iff : forall (n : Node nodeUpdater) (w : World client)
    (vr : nodes.NodeValidation) (r1 : Remote client),
  nodes_Validate client (nodes.UUID (node n)) (remote w) = (inl vr, r1) ->
  length (fst (fst (Validate client n w)))
    = (if nodes.Result (nodes.Boot vr) then 0 else 1)
      + (if nodes.Result (nodes.Deploy vr) then 0 else 1) /\
  length (fst (fst (Validate client n w))) <= 2 /\
  (fst (fst (Validate client n w)) = [] <->
   nodes.Result (nodes.Boot vr) = true /\ nodes.Result (nodes.Deploy vr) = true).
Proof.
  intros n w vr r1 H. rewrite (Validate_answered nodeUpdater client n w vr r1 H).
  cbn [fst].
  destruct (nodes.Result (nodes.Boot vr)), (nodes.Result (nodes.Deploy vr));
    cbn; repeat split; try lia; try reflexivity; intros; try discriminate;
    intuition discriminate.
Qed.

(** *** [HasPorts] *)

(** X13.  [HasPorts] writes nothing to the log, and it answers [true] only
    without an error, after a listing that succeeded and an emptiness check
    that said the listing is not empty. *)
Theorem HasPorts_true_only_checked : forall (n : Node nodeUpdater) (w : World client),
  logs (snd (HasPorts client n w)) = logs w /\
  (fst (fst (HasPorts client n w)) = true ->
   snd (fst (HasPorts client n w)) = None /\
   exists pages r1,
     ports_List_AllPages client (ports_of_node (nodes.UUID (node n))) (remote w)
       = (inl pages, r1) /\
     Pages_IsEmpty client pages = inl false).
Proof.
  intros n w. unfold HasPorts. run. fold (ports_of_node (nodes.UUID (node n))).
  destruct (ports_List_AllPages client _ (remote w)) as [[pages|e] r1].
  - destruct (Pages_IsEmpty client pages) as [[|]|e] eqn:He; cbn [fst snd logs];
      (split; [reflexivity|]); try discriminate.
    intros _. split; [reflexivity|]. now exists pages, r1.
  - cbn [fst snd logs]. split; [reflexivity | discriminate].
Qed.

End HandleEffects.

(** ** The further properties on the laboratory service *)

Lemma AssertNode_hides_cause_witness :
  exists err,
    fst (AssertNode no_updater client root "b" (start lab_down)) = (None, Some err) /\
    Unwrap err = None /\
    Error err = "failed to find node by ID b: not found".
Proof.
  exact (AssertNode_hides_cause unit no_updater client root "b" (start lab_down)
           unavailable lab_down ltac:(discriminate) eq_refl eq_refl).
Defined.

Lemma FindNodeByNames_tries_prefix_witness :
  fst (FindNodeByNames no_updater client root ["a"; "c"] (start lab)) = (None, None) /\
  exists k,
    k = 2 /\
    requests (snd (FindNodeByNames no_updater client root ["a"; "c"] (start lab)))
      = lookups (firstn k ["a"; "c"]).
Proof.
  split; [reflexivity|].
  destruct (FindNodeByNames_tries_prefix unit no_updater client root ["a"; "c"] (start lab))
    as (k & _ & Hr & _ & Hn).
  exists k. split; [apply Hn; reflexivity | exact Hr].
Defined.

Lemma FindNodeByNames_error_text_witness :
  exists err,
    fst (FindNodeByNames no_updater client root [""; "b"; "c"] (start lab_down))
      = (None, Some err) /\
    Error err
      = "failed to find node by name b: failed to find node by ID b: Service Unavailable".
Proof.
  exact (FindNodeByNames_error_text unit no_updater client root [""] (start lab_down)
           lab_down lab_down "b" ["c"] unavailable eq_refl ltac:(discriminate)
           eq_refl eq_refl).
Defined.

Lemma findNodeIDByMAC_effects_witness :
  snd (fst (findNodeIDByMAC client root "52:54:00:aa:bb:cc" (start lab_down))) <> None /\
  fst (fst (findNodeIDByMAC client root "52:54:00:aa:bb:cc" (start lab_down))) = "".
Proof.
  assert (H : snd (fst (findNodeIDByMAC client root "52:54:00:aa:bb:cc" (start lab_down)))
              <> None) by discriminate.
  split; [exact H|].
  destruct (findNodeIDByMAC_effects client root "52:54:00:aa:bb:cc" (start lab_down))
    as [_ [_ Himp]].
  exact (Himp H).
Defined.

Lemma CreateBootPort_outcomes_witness :
  fst (CreateBootPort client (handle node_bare) "52:54:00:00:00:02" (start lab)) = None /\
  exists err,
    fst (CreateBootPort client (handle node_bare) "52:54:00:00:00:02" (start lab_down))
      = Some err /\
    Unwrap err = Some unavailable /\
    Error err
      = "failed to create ironic port 52:54:00:00:00:02 for node bare: Service Unavailable".
Proof.
  split.
  - destruct (CreateBootPort_outcomes unit client (handle node_bare) "52:54:00:00:00:02"
                (start lab) _ _ eq_refl) as [_ [_ H]].
    exact H.
  - destruct (CreateBootPort_outcomes unit client (handle node_bare) "52:54:00:00:00:02"
                (start lab_down) (inr unavailable) lab_down eq_refl) as [_ [_ H]].
    exact H.
Defined.

Lemma Validate_ready_iff_witness :
  length (fst (fst (Validate client (handle node_N) (start lab)))) = 1 /\
  fst (fst (Validate client (handle node_N) (start lab))) <> [].
Proof.
  destruct (Validate_ready_iff unit client (handle node_N) (start lab) (verdict lab) lab
              eq_refl) as [Hlen [_ Hiff]].
  split; [exact Hlen|].
  intros Hnil. apply Hiff in Hnil. destruct Hnil as [Hboot _]. discriminate Hboot.
Defined.

Lemma HasPorts_true_only_checked_witness :
  fst (fst (HasPorts client (handle node_N) (start lab))) = true /\
  snd (fst (HasPorts client (handle node_N) (start lab))) = None.
Proof.
  destruct (HasPorts_true_only_checked unit client (handle node_N) (start lab)) as [_ H].
  destruct (H eq_refl) as [Hnil _].
  split; [reflexivity | exact Hnil].
Defined.

(** * The handle a lookup by name returns *)

Section NamedHandle.

Variable nodeUpdater : Type.
Variable builder : Logger -> nodeUpdater.
Variable client : ServiceClient.

(** X14.  The node [FindNodeByNames] finds under the name [n] holds the
    payload the service answered, the updater built from the logger of the
    caller, and that logger with the value [NodeID] set to [n]: the name it
    was looked up by, whatever the UUID in the payload. *)
Theorem FindNodeByNames_handle : forall (lg : Logger) (pre : list string)
    (w : World client) (r1 r2 : Remote client) (n : string) (post : list string)
    (nd : nodes.Node),
  all_absent client pre (remote w) = Some r1 ->
  n <> "" ->
  nodes_Get client n r1 = (inl nd, r2) ->
  fst (FindNodeByNames builder client lg (pre ++ n :: post) w)
  = (Some {| node := nd; log := WithValues lg "NodeID" n; updater := builder lg |}, None).
Proof.
  intros lg pre w r1 r2 n post nd Habs Hne Hget.
  destruct (FindNodeByNames_skip nodeUpdater builder client lg pre (n :: post) w r1 Habs)
    as (w1 & Hrun & Hrem & _ & _).
  rewrite Hrun. cbn [FindNodeByNames]. run. rewrite <- Hrem in Hget.
  pose proof (GetNode_found nodeUpdater builder client lg n
                (logged w1 (looking lg n)) nd r2 Hne Hget) as Hg.
  unfold logged, looking in Hg. rewrite Hg. reflexivity.
Qed.

End NamedHandle.

Lemma FindNodeByNames_handle_witness :
  fst (FindNodeByNames no_updater client root ["a"; "b"; "c"] (start lab))
  = (Some {| node := node_b;
             log := {| level := 0; values := [("NodeID", "b")] |};
             updater := tt |}, None).
Proof.
  exact (FindNodeByNames_handle unit no_updater client root ["a"] (start lab) lab lab
           "b" ["c"] node_b eq_refl ltac:(discriminate) eq_refl).
Defined.
